(** * cleanup_script.py: removal of a marker-delimited block of lines

    The script reads one text file into a list of lines, walks the list with
    two boolean flags ([skip], [found_start]) while collecting the lines to
    keep in [new_lines], and writes the kept lines back when the start marker
    was seen.  The development below embeds the script (the Python primitives
    it calls, the loop body, the file operations), then relates it to the
    statements of the specification. *)

From Stdlib Require Import Ascii.
From stdpp Require Import base option list strings gmap.

(** ** Python primitives used by the script *)

Module Py.

(** Line terminator of a text stream after newline translation. *)
Definition newline : ascii := ascii_of_nat 10.
Definition nl : string := String newline EmptyString.
#[global] Arguments newline : simpl never.

(** [sub in s] on [str]: substring containment.  The empty string is
    contained in every string. *)
Fixpoint contains (sub s : string) : bool :=
  if String.prefix sub s then true
  else match s with
       | EmptyString => false
       | String _ s' => contains sub s'
       end.

(** [f.readlines()]: the text cut after every newline; each line keeps its
    terminator, the last line may lack one. *)
Fixpoint readlines (text : string) : list string :=
  match text with
  | EmptyString => []
  | String c rest =>
      if Ascii.eqb c newline then String c EmptyString :: readlines rest
      else match readlines rest with
           | [] => [String c EmptyString]
           | l :: ls => String c l :: ls
           end
  end.

(** Text produced by [f.writelines(ls)] on a stream: the lines one after
    the other, nothing added between them. *)
Definition joined (ls : list string) : string := foldr String.append "" ls.

(** Uncaught exceptions the script can die with: [OSError] from [open], and
    [UnicodeDecodeError] (a [ValueError], not an [OSError]) from
    [f.readlines()] on a file whose bytes are not valid in the encoding. *)
Inductive exn : Set :=
| OSError (filename : string)
| UnicodeDecodeError.

(** The part of the machine the script touches: the files by path (each
    with its text as the stream decodes it), the paths that cannot be
    opened for writing, and what was printed. *)
Record World : Type := mkWorld {
  files : gmap string string;
  readonly : gset string;
  stdout : list string
}.

(** A computation either raises or returns, and may change the world. *)
Definition IO (A : Type) : Type := World -> (exn + A) * World.

#[global] Instance io_ret : MRet IO := fun A (a : A) w => (inr a, w).

#[global] Instance io_bind : MBind IO := fun A B (k : A -> IO B) (m : IO A) w =>
  match m w with
  | (inl e, w') => (inl e, w')
  | (inr a, w') => k a w'
  end.

(** [open(path, 'r')] followed by reading the whole stream, for a file that
    decodes; a file that does not is the business of [Machine] below. *)
Definition open_r (path : string) : IO string :=
  fun w =>
    match files w !! path with
    | Some text => (inr text, w)
    | None => (inl (OSError path), w)
    end.

(** [open(path, 'w')]: the file is created or truncated. *)
Definition open_w (path : string) : IO unit :=
  fun w =>
    if decide (path ∈ readonly w) then (inl (OSError path), w)
    else (inr tt, mkWorld (<[path := ""]> (files w)) (readonly w) (stdout w)).

(** [f.writelines(ls)] on the stream opened on [path]. *)
Definition writelines (path : string) (ls : list string) : IO unit :=
  fun w =>
    let old := default "" (files w !! path) in
    (inr tt,
     mkWorld (<[path := old +:+ joined ls]> (files w)) (readonly w) (stdout w)).

(** [print(msg)]: one more line on standard output. *)
Definition print (msg : string) : IO unit :=
  fun w => (inr tt, mkWorld (files w) (readonly w) (stdout w ++ [msg])).

(** Exit status of the interpreter. *)
Definition exit_code {A} (r : exn + A) : nat :=
  match r with
  | inl _ => 1
  | inr _ => 0
  end.

End Py.

(** ** The script *)

(** The three literals of the script. *)
Definition file_path : string :=
  "c:\Users\PATJUNG\OneDrive\Desktop\Software_PyGrassRealAi\TEST_PyGrassReal\web-3d-editor\src\App.tsx".
Definition script_start_marker : string := "let angle = v1.angleTo(v2);".
Definition script_end_marker : string := "targetRef.current.updateMatrixWorld();".

Definition msg_removed : string := "Successfully removed duplicate block.".
Definition msg_not_found : string := "Could not find the duplicate block start.".

(** Variables of the loop. *)
Record Loop : Type := mkLoop {
  new_lines : list string;
  skip : bool;
  found_start : bool
}.

Definition loop_init : Loop := mkLoop [] false false.

(** What the operator is told at the end. *)
Inductive status : Set := Success | NotFound.

Definition message (s : status) : string :=
  match s with
  | Success => msg_removed
  | NotFound => msg_not_found
  end.

Section Markers.

Variables start_marker end_marker : string.

(** One iteration of [for i, line in enumerate(lines)] (the index [i] is
    never read).  The three [if] statements run in sequence; [continue]
    leaves the iteration after the second one. *)
Definition loop_body (st : Loop) (line : string) : Loop :=
  let st1 :=
    if Py.contains start_marker line
    then mkLoop (new_lines st) true true
    else st in
  if skip st1 && Py.contains end_marker line
  then mkLoop (new_lines st1) false (found_start st1)
  else if negb (skip st1)
       then mkLoop (new_lines st1 ++ [line]) (skip st1) (found_start st1)
       else st1.

Definition loop_from (st : Loop) (lines : list string) : Loop :=
  fold_left loop_body lines st.

Definition loop (lines : list string) : Loop := loop_from loop_init lines.

(** The branch taken by the final [if found_start]. *)
Definition status_of (st : Loop) : status :=
  if found_start st then Success else NotFound.

(** The whole script, on the file at [path]. *)
Definition cleanup (path : string) : Py.IO unit :=
  text ← Py.open_r path;
  let lines := Py.readlines text in
  let st := loop lines in
  if found_start st
  then Py.open_w path;; Py.writelines path (new_lines st);;
       Py.print msg_removed
  else Py.print msg_not_found.

End Markers.

(** The script as shipped. *)
Definition cleanup_script : Py.IO unit :=
  cleanup script_start_marker script_end_marker file_path.

(** A [Py.World] holds each file as the text its stream decodes to.  A file
    whose bytes are not valid UTF-8 has no such text: [open] succeeds on it
    and [f.readlines()] raises [UnicodeDecodeError] before anything is
    printed or written.  A machine is a world together with the paths of
    such files. *)
Record Machine : Type := mkMachine {
  decoded : Py.World;
  garbled : gset string
}.

(** The script on a machine: lines 6-7 raise on a garbled file, otherwise the
    script runs on the decoded files. *)
Definition run_cleanup (start_marker end_marker path : string) (m : Machine)
    : (Py.exn + unit) * Machine :=
  if decide (path ∈ garbled m) then (inl Py.UnicodeDecodeError, m)
  else let r := cleanup start_marker end_marker path (decoded m) in
       (r.1, mkMachine r.2 (garbled m)).

(** ** Vocabulary of the specification *)

(** A line "contains" a marker; a run of lines is free of it. *)
Definition has (marker line : string) : Prop := Py.contains marker line = true.
Definition free_of (marker : string) (ls : list string) : Prop :=
  Forall (fun line => Py.contains marker line = false) ls.

(** Lines made of a body without newline and a terminator, as [readlines]
    produces them: only the last line of a file may lack its terminator, and
    then it is not empty. *)
Definition no_newline (body : string) : Prop :=
  Py.contains Py.nl body = false.

Inductive file_lines : list string -> Prop :=
| file_lines_nil : file_lines []
| file_lines_last body :
    no_newline body -> body <> "" -> file_lines [body]
| file_lines_cons body ls :
    no_newline body -> file_lines ls -> file_lines ((body +:+ Py.nl) :: ls).

Module Spec.
Section Markers.

Variables start_marker end_marker : string.

(** The lines that follow the first line containing the end marker; none
    when no line contains it. *)
Fixpoint after_end (ls : list string) : list string :=
  match ls with
  | [] => []
  | line :: rest =>
      if Py.contains end_marker line then rest else after_end rest
  end.

(** Section 3, invariant: the input with the run from the first
    start-marker line through the next end-marker line removed, and
    nothing else. *)
Fixpoint remove_first_block (ls : list string) : list string :=
  match ls with
  | [] => []
  | line :: rest =>
      if Py.contains start_marker line then after_end rest
      else line :: remove_first_block rest
  end.

(** Section 4.1, step 2 and step 3: the state machine. *)
Record State : Type := mkState {
  output : list string;
  insideBlock : bool;
  startFound : bool
}.

Definition init : State := mkState [] false false.

Definition step (st : State) (line : string) : State :=
  if negb (insideBlock st) && Py.contains start_marker line
  then mkState (output st) true true
  else if insideBlock st && Py.contains end_marker line
  then mkState (output st) false (startFound st)
  else if insideBlock st
  then st
  else mkState (output st ++ [line]) (insideBlock st) (startFound st).

Definition run (lines : list string) : State := fold_left step lines init.

(** Section 4.1, step 3, with the end-marker test applied to the line that
    opens a block as well: a line with both markers met outside a block is
    dropped, sets [startFound] and leaves the machine outside the block.  On
    every other line the machine steps as above. *)
Definition step_same_line (st : State) (line : string) : State :=
  if negb (insideBlock st)
     && Py.contains start_marker line && Py.contains end_marker line
  then mkState (output st) false true
  else step st line.

Definition run_same_line (lines : list string) : State :=
  fold_left step_same_line lines init.

(** Section 4.1, step 4. *)
Definition reported (st : State) : status :=
  if startFound st then Success else NotFound.

End Markers.
End Spec.

(** The state of the loop read as a state of the machine of section 4.1. *)
Definition as_spec_state (st : Loop) : Spec.State :=
  Spec.mkState (new_lines st) (skip st) (found_start st).

(** A block is open at the end of [ls]: some line carries the start marker
    and neither it nor any line after it carries the end marker. *)
Definition block_open (start_marker end_marker : string)
    (ls : list string) : Prop :=
  exists pre s tl,
    ls = pre ++ s :: tl /\ has start_marker s /\ free_of end_marker (s :: tl).

(** Every line that carries both markers is met inside a block: a block is
    open at the end of the lines before it. *)
Definition both_markers_inside (start_marker end_marker : string)
    (ls : list string) : Prop :=
  forall pre x post,
    ls = pre ++ x :: post ->
    has start_marker x -> has end_marker x ->
    block_open start_marker end_marker pre.

(** A line with its terminator, for the examples. *)
Definition ln (body : string) : string := body +:+ Py.nl.

(** The scenario of section 8, and two inputs on which the script and the
    prose of the specification part ways. *)
Definition scenario_lines : list string :=
  [ln "a"; ln "START"; ln "b"; ln "END"; ln "c"].
Definition two_blocks : list string :=
  [ln "START"; ln "END"; ln "x"; ln "START"; ln "y"].
Definition both_on_one_line : list string :=
  [ln "START END"; ln "b"].
Definition both_inside_block : list string :=
  [ln "START"; ln "m"; ln "START END"; ln "x"; ln "END"; ln "y"].
Definition end_on_start_line : list string :=
  [ln "START END"; ln "b"; ln "END"; ln "c"].

(** A machine holding one writable file and an empty console. *)
Definition one_file (path text : string) : Py.World :=
  Py.mkWorld {[ path := text ]} ∅ [].

(** ** Facts about the Python primitives *)

Section PyFacts.
Import Py.

Lemma append_nil_r (s : string) : s +:+ "" = s.
Proof.
  induction s as [|c s IH]; [done|].
  change (String c (s +:+ "") = String c s). by rewrite IH.
Qed.

Lemma append_assoc (a b c : string) : (a +:+ b) +:+ c = a +:+ b +:+ c.
Proof.
  induction a as [|x a IH]; [done|].
  change (String x ((a +:+ b) +:+ c) = String x (a +:+ b +:+ c)).
  by rewrite IH.
Qed.

Lemma prefix_iff (sub s : string) :
  String.prefix sub s = true <-> exists b, s = sub +:+ b.
Proof.
  revert s. induction sub as [|a sub IH]; intros s.
  - split; [intros _; by exists s | by destruct s].
  - destruct s as [|c s]; simpl.
    + split; [done | intros [b Hb]; discriminate Hb].
    + destruct (ascii_dec a c) as [->|Hne].
      * rewrite IH. split; intros [b Hb]; exists b.
        -- by rewrite Hb.
        -- by injection Hb.
      * split; [done | intros [b Hb]; injection Hb; congruence].
Qed.

Lemma contains_nil (sub : string) :
  contains sub "" = String.prefix sub "".
Proof.
  change (contains sub "")
    with (if String.prefix sub "" then true else false).
  by destruct (String.prefix sub "").
Qed.

Lemma contains_String (sub : string) (c : ascii) (s : string) :
  contains sub (String c s)
  = String.prefix sub (String c s) || contains sub s.
Proof.
  change (contains sub (String c s))
    with (if String.prefix sub (String c s) then true else contains sub s).
  by destruct (String.prefix sub (String c s)).
Qed.

(** [contains] is substring containment. *)
Lemma contains_iff (sub s : string) :
  contains sub s = true <-> exists a b, s = a +:+ sub +:+ b.
Proof.
  induction s as [|c s IH].
  - rewrite contains_nil, prefix_iff. split.
    + intros [b Hb]. by exists "", b.
    + intros [a [b Hab]]. destruct a; [by exists b | discriminate Hab].
  - rewrite contains_String, orb_true_iff, prefix_iff, IH. split.
    + intros [[b Hb] | [a [b Hab]]].
      * by exists "", b.
      * exists (String c a), b. simpl. by rewrite Hab.
    + intros [a [b Hab]]. destruct a as [|c' a].
      * left. by exists b.
      * right. injection Hab as _ Hab. by exists a, b.
Qed.

Lemma contains_empty (s : string) : contains "" s = true.
Proof. by destruct s. Qed.

Lemma no_newline_empty : no_newline "".
Proof. reflexivity. Qed.

Lemma prefix_nl (c : ascii) (body : string) :
  String.prefix nl (String c body) = Ascii.eqb c newline.
Proof.
  change (String.prefix nl (String c body))
    with (if ascii_dec newline c then String.prefix "" body else false).
  destruct (ascii_dec newline c) as [<-|Hne].
  - rewrite Ascii.eqb_refl. by destruct body.
  - symmetry. apply Ascii.eqb_neq. congruence.
Qed.

Lemma no_newline_String (c : ascii) (body : string) :
  no_newline (String c body) <-> c <> newline /\ no_newline body.
Proof.
  unfold no_newline.
  rewrite contains_String, prefix_nl, orb_false_iff, Ascii.eqb_neq.
  done.
Qed.

Lemma eqb_newline (c : ascii) : c <> newline -> Ascii.eqb c newline = false.
Proof. intros H. by apply Ascii.eqb_neq. Qed.

(** A terminated line at the head of the text is the first line read. *)
Lemma readlines_terminated (body rest : string) :
  no_newline body ->
  readlines (body +:+ nl +:+ rest) = (body +:+ nl) :: readlines rest.
Proof.
  induction body as [|c body IH]; intros Hb.
  - reflexivity.
  - apply no_newline_String in Hb as [Hc Hb]. simpl.
    rewrite (eqb_newline _ Hc). fold (body +:+ nl +:+ rest).
    by rewrite (IH Hb).
Qed.

(** A text without newline is read as one line. *)
Lemma readlines_unterminated (body : string) :
  no_newline body -> body <> "" -> readlines body = [body].
Proof.
  induction body as [|c body IH]; intros Hb Hne; [done|].
  apply no_newline_String in Hb as [Hc Hb]. simpl.
  rewrite (eqb_newline _ Hc).
  destruct body as [|c' body]; [done|].
  by rewrite (IH Hb).
Qed.

(** What [readlines] returns has the shape of the lines of a file. *)
Lemma readlines_file_lines (text : string) : file_lines (readlines text).
Proof.
  induction text as [|c text IH]; simpl; [constructor|].
  destruct (Ascii.eqb c newline) eqn:Hc.
  - apply Ascii.eqb_eq in Hc as ->.
    apply (file_lines_cons ""); [apply no_newline_empty | done].
  - apply Ascii.eqb_neq in Hc.
    destruct (readlines text) as [|l ls].
    + apply file_lines_last; [|done].
      apply no_newline_String. split; [done | apply no_newline_empty].
    + inversion IH as [|body Hb Hne|body ls' Hb Hls]; subst.
      * apply file_lines_last; [|done]. by apply no_newline_String.
      * apply (file_lines_cons (String c body)); [|done].
        by apply no_newline_String.
Qed.


(** Reading back what was written gives the lines back, when they have the
    shape of the lines of a file. *)
Lemma readlines_joined (ls : list string) :
  file_lines ls -> readlines (joined ls) = ls.
Proof.
  induction 1 as [|body Hb Hne|body ls Hb Hls IH]; simpl.
  - done.
  - rewrite append_nil_r. by apply readlines_unterminated.
  - fold (joined ls).
    rewrite append_assoc, readlines_terminated by done.
    by rewrite IH.
Qed.

(** Dropping lines keeps the shape. *)
Lemma file_lines_sublist (l1 l2 : list string) :
  l1 `sublist_of` l2 -> file_lines l2 -> file_lines l1.
Proof.
  induction 1 as [|x l1 l2 Hsub IH|x l1 l2 Hsub IH]; intros Hwf.
  - done.
  - inversion Hwf as [|body Hb Hne|body ls Hb Hls]; subst.
    + apply sublist_nil_r in Hsub as ->. by constructor.
    + constructor; auto.
  - apply IH.
    inversion Hwf as [|body Hb Hne|body ls Hb Hls]; subst;
      [constructor | done].
Qed.

End PyFacts.

(** ** Facts about the loop *)

Section LoopFacts.

Variables start_marker end_marker : string.

Local Abbreviation body := (loop_body start_marker end_marker) (only parsing).
Local Abbreviation from := (loop_from start_marker end_marker) (only parsing).

Lemma loop_from_cons st line ls : from st (line :: ls) = from (body st line) ls.
Proof. reflexivity. Qed.

Lemma loop_from_app st l1 l2 : from st (l1 ++ l2) = from (from st l1) l2.
Proof. apply fold_left_app. Qed.

(** *** One iteration, case by case *)

(** A line with the start marker is never appended; it leaves the loop
    skipping unless it carries the end marker too. *)
Lemma body_start st line :
  has start_marker line ->
  body st line
  = mkLoop (new_lines st) (negb (Py.contains end_marker line)) true.
Proof.
  unfold has, loop_body. intros ->. simpl.
  by destruct (Py.contains end_marker line).
Qed.

(** Outside a block, a line without the start marker is appended. *)
Lemma body_keep st line :
  skip st = false ->
  Py.contains start_marker line = false ->
  body st line = mkLoop (new_lines st ++ [line]) false (found_start st).
Proof.
  unfold loop_body. intros Hsk ->. by rewrite Hsk.
Qed.

(** Inside a block, a line without the start marker either closes the
    block or is dropped. *)
Lemma body_skipping acc f line :
  Py.contains start_marker line = false ->
  body (mkLoop acc true f) line
  = mkLoop acc (negb (Py.contains end_marker line)) f.
Proof.
  unfold loop_body. intros ->. simpl.
  by destruct (Py.contains end_marker line).
Qed.

(** *** The accumulator is only appended to *)

Lemma body_frame acc nls sk f line :
  body (mkLoop (acc ++ nls) sk f) line
  = let r := body (mkLoop nls sk f) line in
    mkLoop (acc ++ new_lines r) (skip r) (found_start r).
Proof.
  unfold loop_body.
  destruct (Py.contains start_marker line),
    (Py.contains end_marker line), sk; simpl; by rewrite ?app_assoc.
Qed.

Lemma loop_frame acc nls sk f ls :
  from (mkLoop (acc ++ nls) sk f) ls
  = let r := from (mkLoop nls sk f) ls in
    mkLoop (acc ++ new_lines r) (skip r) (found_start r).
Proof.
  revert nls sk f. induction ls as [|line ls IH]; intros nls sk f.
  - reflexivity.
  - rewrite !loop_from_cons, body_frame. cbv zeta.
    destruct (body (mkLoop nls sk f) line) as [nls' sk' f']. apply IH.
Qed.

(** The lines kept and the skip flag do not depend on [found_start]. *)
Lemma loop_found_irrelevant acc sk f f' ls :
  new_lines (from (mkLoop acc sk f) ls) = new_lines (from (mkLoop acc sk f') ls)
  /\ skip (from (mkLoop acc sk f) ls) = skip (from (mkLoop acc sk f') ls).
Proof.
  revert acc sk f f'. induction ls as [|line ls IH]; intros acc sk f f'.
  - done.
  - rewrite !loop_from_cons. unfold loop_body.
    destruct (Py.contains start_marker line),
      (Py.contains end_marker line), sk; simpl; apply IH.
Qed.

(** [found_start] records whether some line carried the start marker. *)
Lemma found_start_loop st ls :
  found_start (from st ls)
  = found_start st || existsb (Py.contains start_marker) ls.
Proof.
  revert st. induction ls as [|line ls IH]; intros st.
  - simpl. by rewrite orb_false_r.
  - rewrite loop_from_cons, IH. simpl. unfold loop_body.
    destruct (Py.contains start_marker line),
      (Py.contains end_marker line), (skip st); simpl;
      by rewrite ?orb_true_r, ?orb_false_r.
Qed.

Lemma existsb_free_of ls :
  existsb (Py.contains start_marker) ls = false <-> free_of start_marker ls.
Proof.
  unfold free_of. induction ls as [|line ls IH]; simpl.
  - split; [constructor | done].
  - rewrite orb_false_iff, Forall_cons, IH. done.
Qed.

(** *** Runs of lines *)

(** Outside a block, lines without the start marker are all kept. *)
Lemma loop_searching acc f ls :
  free_of start_marker ls ->
  from (mkLoop acc false f) ls = mkLoop (acc ++ ls) false f.
Proof.
  revert acc. induction ls as [|line ls IH]; intros acc Hfree.
  - by rewrite app_nil_r.
  - apply Forall_cons in Hfree as [Hline Hfree].
    rewrite loop_from_cons, body_keep by done. simpl.
    rewrite IH by done. by rewrite <- app_assoc.
Qed.

(** Inside a block, lines without the end marker are all dropped. *)
Lemma loop_skipping acc ls :
  free_of end_marker ls ->
  from (mkLoop acc true true) ls = mkLoop acc true true.
Proof.
  induction ls as [|line ls IH]; intros Hfree; [done|].
  apply Forall_cons in Hfree as [Hline Hfree].
  rewrite loop_from_cons. unfold loop_body. rewrite Hline. simpl.
  destruct (Py.contains start_marker line); simpl; by apply IH.
Qed.

(** Inside a block, the lines up to the first one with the end marker are
    dropped, and the loop goes on outside a block. *)
Lemma loop_after_end acc ls :
  new_lines (from (mkLoop acc true true) ls)
  = new_lines
      (from (mkLoop acc false true) (Spec.after_end end_marker ls)).
Proof.
  induction ls as [|line ls IH]; [done|].
  rewrite loop_from_cons. unfold loop_body. simpl.
  destruct (Py.contains end_marker line); simpl;
    destruct (Py.contains start_marker line); simpl; done.
Qed.

(** The lines before the first one with the start marker are kept, and the
    block opened there is dropped through its end. *)
Lemma loop_first_block pre s tl :
  free_of start_marker pre ->
  has start_marker s ->
  new_lines (from loop_init (pre ++ s :: tl))
  = pre ++ new_lines
             (from loop_init (Spec.after_end end_marker (s :: tl))).
Proof.
  intros Hpre Hs. unfold loop_init.
  rewrite loop_from_app, loop_searching by done.
  rewrite loop_from_cons, body_start by done. simpl.
  rewrite <- (app_nil_r pre) at 1.
  rewrite loop_frame. cbv zeta. simpl. f_equal.
  destruct (Py.contains end_marker s); simpl.
  - apply loop_found_irrelevant.
  - rewrite loop_after_end. apply loop_found_irrelevant.
Qed.

(** *** Invariants of the lines kept *)

Lemma loop_sublist sk f ls :
  new_lines (from (mkLoop [] sk f) ls) `sublist_of` ls.
Proof.
  revert sk f. induction ls as [|line ls IH]; intros sk f; [done|].
  rewrite loop_from_cons. unfold loop_body.
  destruct (Py.contains start_marker line),
    (Py.contains end_marker line), sk; simpl;
    try (apply sublist_cons, IH).
  all: rewrite (loop_frame [line] []); cbv zeta; simpl;
    apply sublist_skip, IH.
Qed.

Lemma body_no_start st line :
  free_of start_marker (new_lines st) ->
  free_of start_marker (new_lines (body st line)).
Proof.
  unfold free_of, loop_body. intros Hst.
  destruct (Py.contains start_marker line) eqn:Hs,
    (Py.contains end_marker line), (skip st); simpl; try done.
  all: apply Forall_app; split; [done | by constructor].
Qed.

Lemma loop_no_start st ls :
  free_of start_marker (new_lines st) ->
  free_of start_marker (new_lines (from st ls)).
Proof.
  revert st. induction ls as [|line ls IH]; intros st Hst; [done|].
  rewrite loop_from_cons. by apply IH, body_no_start.
Qed.

End LoopFacts.

(** ** Blocks *)

Section Blocks.

Variables start_marker end_marker : string.

Local Abbreviation from := (loop_from start_marker end_marker) (only parsing).

(** A block that is never closed runs to the end of the input. *)
Lemma loop_unterminated pre s tl :
  free_of start_marker pre ->
  has start_marker s ->
  free_of end_marker (s :: tl) ->
  loop start_marker end_marker (pre ++ s :: tl) = mkLoop pre true true.
Proof.
  intros Hpre Hs Hend. apply Forall_cons in Hend as [Hs' Htl].
  unfold loop, loop_init.
  rewrite loop_from_app, loop_searching by done.
  rewrite loop_from_cons, body_start by done. rewrite Hs'. simpl.
  by apply loop_skipping.
Qed.

(** A block opened on the last line is that line. *)
Lemma loop_start_last pre s :
  free_of start_marker pre ->
  has start_marker s ->
  loop start_marker end_marker (pre ++ [s])
  = mkLoop pre (negb (Py.contains end_marker s)) true.
Proof.
  intros Hpre Hs. unfold loop, loop_init.
  rewrite loop_from_app, loop_searching by done.
  by rewrite loop_from_cons, body_start.
Qed.

(** One block, opened and closed once, with nothing to remove after it. *)
Lemma loop_one_block pre s mid e post :
  free_of start_marker pre ->
  has start_marker s ->
  Py.contains end_marker s = false ->
  free_of end_marker mid ->
  Py.contains start_marker e = false ->
  has end_marker e ->
  free_of start_marker post ->
  loop start_marker end_marker (pre ++ s :: mid ++ e :: post)
  = mkLoop (pre ++ post) false true.
Proof.
  intros Hpre Hs Hs' Hmid He' He Hpost. unfold loop, loop_init.
  rewrite loop_from_app, loop_searching by done.
  rewrite loop_from_cons, body_start by done. rewrite Hs'. simpl.
  rewrite loop_from_app, loop_skipping by done.
  rewrite loop_from_cons, body_skipping by done. rewrite He. simpl.
  by apply loop_searching.
Qed.

(** The loop takes the steps of the machine of section 4.1 with the end-marker
    test on the opening line. *)
Lemma step_same_line_agrees st line :
  (skip st = true -> found_start st = true) ->
  Spec.step_same_line start_marker end_marker (as_spec_state st) line
  = as_spec_state (loop_body start_marker end_marker st line)
  /\ (skip (loop_body start_marker end_marker st line) = true ->
      found_start (loop_body start_marker end_marker st line) = true).
Proof.
  destruct st as [acc sk f].
  unfold Spec.step_same_line, Spec.step, loop_body, as_spec_state. simpl.
  intros Hinv.
  destruct (Py.contains start_marker line),
    (Py.contains end_marker line), sk; simpl in *; try done.
  all: by rewrite Hinv.
Qed.

Lemma run_same_line_agrees st lines :
  (skip st = true -> found_start st = true) ->
  fold_left (Spec.step_same_line start_marker end_marker) lines
    (as_spec_state st)
  = as_spec_state (from st lines).
Proof.
  revert st. induction lines as [|line lines IH]; intros st Hinv.
  - done.
  - destruct (step_same_line_agrees st line Hinv) as [Hstep Hinv'].
    simpl. rewrite Hstep. by apply IH.
Qed.

Lemma run_same_line_loop lines :
  Spec.run_same_line start_marker end_marker lines
  = as_spec_state (loop start_marker end_marker lines).
Proof.
  unfold Spec.run_same_line, loop.
  change Spec.init with (as_spec_state loop_init).
  by apply run_same_line_agrees.
Qed.

End Blocks.

(** ** Facts about the script *)

Section ScriptFacts.

Variables start_marker end_marker : string.

(** A run of the script on a readable file, by the outcome of the loop. *)
Lemma cleanup_run path w text :
  Py.files w !! path = Some text ->
  cleanup start_marker end_marker path w
  = let st := loop start_marker end_marker (Py.readlines text) in
    if found_start st
    then if decide (path ∈ Py.readonly w)
         then (inl (Py.OSError path), w)
         else (inr tt,
               Py.mkWorld (<[path := Py.joined (new_lines st)]> (Py.files w))
                 (Py.readonly w) (Py.stdout w ++ [msg_removed]))
    else (inr tt,
          Py.mkWorld (Py.files w) (Py.readonly w)
            (Py.stdout w ++ [msg_not_found])).
Proof.
  intros Hfile. unfold cleanup, mbind, Py.io_bind, Py.open_r.
  rewrite Hfile. cbv zeta.
  destruct (found_start _); [|done].
  unfold Py.open_w. destruct (decide _); [done|].
  unfold Py.writelines, Py.print. simpl.
  by rewrite lookup_insert_eq, insert_insert_eq.
Qed.

(** A file that cannot be opened for reading: the script dies on the first
    statement, before anything is printed. *)
Lemma cleanup_unreadable path w :
  Py.files w !! path = None ->
  cleanup start_marker end_marker path w = (inl (Py.OSError path), w).
Proof.
  intros Hfile. unfold cleanup, mbind, Py.io_bind, Py.open_r.
  by rewrite Hfile.
Qed.

(** Without the start marker the loop copies its input. *)
Lemma loop_start_absent lines :
  free_of start_marker lines ->
  loop start_marker end_marker lines = mkLoop lines false false.
Proof. intros Hfree. unfold loop, loop_init. by rewrite loop_searching. Qed.

End ScriptFacts.

(** ** Further properties of the loop *)

Section LoopShape.

Variables start_marker end_marker : string.

(** The three flags-and-list updates of one iteration, in closed form. *)
Lemma loop_body_eq st line :
  loop_body start_marker end_marker st line
  = mkLoop
      (if skip st || Py.contains start_marker line
       then new_lines st else new_lines st ++ [line])
      ((skip st || Py.contains start_marker line)
       && negb (Py.contains end_marker line))
      (found_start st || Py.contains start_marker line).
Proof.
  destruct st as [acc sk f]. unfold loop_body. simpl.
  destruct (Py.contains start_marker line),
    (Py.contains end_marker line), sk, f; reflexivity.
Qed.

Lemma loop_snoc lines line :
  loop start_marker end_marker (lines ++ [line])
  = loop_body start_marker end_marker (loop start_marker end_marker lines) line.
Proof. unfold loop. by rewrite loop_from_app. Qed.

Lemma not_has (marker line : string) :
  ~ has marker line <-> Py.contains marker line = false.
Proof. unfold has. by destruct (Py.contains marker line). Qed.

(** The loop ends with [skip] set exactly when a block is open at the end
    of its input. *)
Lemma skip_iff_block_open lines :
  skip (loop start_marker end_marker lines) = true
  <-> block_open start_marker end_marker lines.
Proof.
  induction lines as [|x l IH] using rev_ind.
  - split; [done|]. intros (pre & s & tl & Heq & _). by destruct pre.
  - rewrite loop_snoc, loop_body_eq. simpl.
    rewrite andb_true_iff, orb_true_iff, negb_true_iff, IH. split.
    + intros [[(pre & s & tl & -> & Hs & Hfree) | Hx] Hend].
      * exists pre, s, (tl ++ [x]). split; [by rewrite <- app_assoc|].
        split; [done|]. rewrite app_comm_cons.
        apply Forall_app. split; [done | by constructor].
      * exists l, x, []. split; [done|]. split; [done | by constructor].
    + intros (pre & s & tl & Heq & Hs & Hfree).
      destruct tl as [|y tl _] using rev_ind.
      * apply app_inj_tail in Heq as [-> ->].
        apply Forall_cons in Hfree as [Hend _]. split; [by right | done].
      * rewrite app_comm_cons, app_assoc in Heq.
        apply app_inj_tail in Heq as [-> ->].
        rewrite app_comm_cons in Hfree.
        apply Forall_app in Hfree as [Hfree Hend].
        apply Forall_cons in Hend as [Hend _].
        split; [left; by exists pre, s, tl | done].
Qed.

(** Lines kept once are never taken back. *)
Lemma loop_app_new_lines l1 l2 :
  new_lines (loop start_marker end_marker (l1 ++ l2))
  = new_lines (loop start_marker end_marker l1)
    ++ new_lines
         (loop_from start_marker end_marker
            (mkLoop [] (skip (loop start_marker end_marker l1))
               (found_start (loop start_marker end_marker l1))) l2).
Proof.
  unfold loop. rewrite loop_from_app.
  destruct (loop_from start_marker end_marker loop_init l1) as [acc sk f].
  simpl. rewrite <- (app_nil_r acc) at 1. by rewrite loop_frame.
Qed.


End LoopShape.






(** [found_start] ends set exactly when some line carries the start marker. *)
Lemma found_start_iff (start_marker end_marker : string) (lines : list string) :
  found_start (loop start_marker end_marker lines) = true
  <-> Exists (has start_marker) lines.
Proof.
  unfold loop. rewrite found_start_loop. simpl.
  rewrite existsb_exists, List.Exists_exists. done.
Qed.

(** ** The machine of section 4.1 *)

(** When every line with both markers is met inside a block, the machine of
    section 4.1 as written goes through the states of the loop. *)
Lemma run_inside_loop (start_marker end_marker : string) (lines : list string) :
  both_markers_inside start_marker end_marker lines ->
  Spec.run start_marker end_marker lines
  = as_spec_state (loop start_marker end_marker lines).
Proof.
  induction lines as [|x l IH] using rev_ind; intros Hinside; [done|].
  assert (both_markers_inside start_marker end_marker l) as Hl.
  { intros pre y post -> Hs He.
    apply (Hinside pre y (post ++ [x])); [|done|done].
    by rewrite <- app_assoc. }
  unfold Spec.run. rewrite fold_left_app. simpl.
  fold (Spec.run start_marker end_marker l). rewrite (IH Hl).
  rewrite <- (run_same_line_loop _ _ (l ++ [x])). unfold Spec.run_same_line.
  rewrite fold_left_app. simpl.
  fold (Spec.run_same_line start_marker end_marker l).
  rewrite run_same_line_loop. unfold Spec.step_same_line.
  destruct (negb _ && Py.contains start_marker x && Py.contains end_marker x)
    eqn:Hcase; [|done].
  apply andb_true_iff in Hcase as [Hcase He].
  apply andb_true_iff in Hcase as [Hout Hs]. simpl in Hout.
  assert (block_open start_marker end_marker l) as Hopen
    by by apply (Hinside l x []).
  apply skip_iff_block_open in Hopen. by rewrite Hopen in Hout.
Qed.

(** ** The script at work *)

(** The scenario of section 8, from the file to the file. *)
Example scenario_run :
  cleanup "START" "END" "App.tsx" (one_file "App.tsx" (Py.joined scenario_lines))
  = (inr tt, Py.mkWorld {[ "App.tsx" := ln "a" +:+ ln "c" ]} ∅ [msg_removed]).
Proof. by vm_compute. Qed.

(** A second run on the file the first run wrote. *)
Example scenario_second_run :
  cleanup "START" "END" "App.tsx"
    (cleanup "START" "END" "App.tsx"
       (one_file "App.tsx" (Py.joined scenario_lines))).2
  = (inr tt,
     Py.mkWorld {[ "App.tsx" := ln "a" +:+ ln "c" ]} ∅
       [msg_removed; msg_not_found]).
Proof. by vm_compute. Qed.

(** The script as shipped, on a file with the duplicated block. *)
Example cleanup_script_run :
  cleanup_script
    (one_file file_path
       (ln "const v2 = b.clone();"
        +:+ ln "    let angle = v1.angleTo(v2);"
        +:+ ln "    target.rotateY(angle);"
        +:+ ln "    targetRef.current.updateMatrixWorld();"
        +:+ ln "render();"))
  = (inr tt,
     Py.mkWorld {[ file_path := ln "const v2 = b.clone();" +:+ ln "render();" ]}
       ∅ [msg_removed]).
Proof. by vm_compute. Qed.

(** The script as shipped, on a file that does not exist. *)
Example cleanup_script_missing_file :
  cleanup_script (Py.mkWorld ∅ ∅ []) = (inl (Py.OSError file_path), Py.mkWorld ∅ ∅ []).
Proof. reflexivity. Qed.

(** The script as shipped, on a file that is not valid UTF-8. *)
Example cleanup_script_garbled_file :
  run_cleanup script_start_marker script_end_marker file_path
    (mkMachine (Py.mkWorld ∅ ∅ []) {[ file_path ]})
  = (inl Py.UnicodeDecodeError,
     mkMachine (Py.mkWorld ∅ ∅ []) {[ file_path ]}).
Proof. by vm_compute. Qed.

(** ** The statements of the specification *)

(** C8: the lines kept form a subsequence of the lines read: each one is an
    input line, unchanged, and the order of the input is kept. *)
Theorem output_is_subsequence (start_marker end_marker : string)
    (lines : list string) :
  new_lines (loop start_marker end_marker lines) `sublist_of` lines
  /\ forall line,
       line ∈ new_lines (loop start_marker end_marker lines) -> line ∈ lines.
Proof.
  assert (new_lines (loop start_marker end_marker lines) `sublist_of` lines)
    as Hsub by apply loop_sublist.
  split; [done|]. intros line Hline.
  by eapply sublist_submseteq, elem_of_submseteq in Hsub.
Qed.

(** C9: no line kept contains the start marker; whatever the state of the
    loop, a line with the start marker is not appended. *)
Theorem output_free_of_start (start_marker end_marker : string)
    (lines : list string) (st : Loop) (line : string) :
  free_of start_marker (new_lines (loop start_marker end_marker lines))
  /\ (has start_marker line ->
      new_lines (loop_body start_marker end_marker st line) = new_lines st).
Proof.
  split.
  - apply loop_no_start. constructor.
  - intros Hline. by rewrite body_start.
Qed.

Lemma output_free_of_start_witness :
  has "START" (ln "x START y")
  /\ new_lines (loop_body "START" "END" (mkLoop [ln "a"] false false)
                  (ln "x START y")) = [ln "a"].
Proof.
  split; [reflexivity|].
  apply (output_free_of_start "START" "END" [] (mkLoop [ln "a"] false false)
           (ln "x START y")).
  reflexivity.
Defined.

(** C10: a line with the end marker met before any line with the start marker
    is appended as it is, and leaves both flags as they were. *)
Theorem end_marker_alone_is_kept (start_marker end_marker : string)
    (pre : list string) (line : string) (rest : list string) :
  free_of start_marker pre ->
  Py.contains start_marker line = false ->
  has end_marker line ->
  loop start_marker end_marker (pre ++ [line])
  = mkLoop (pre ++ [line]) false false
  /\ new_lines (loop start_marker end_marker (pre ++ line :: rest))
     = pre ++ line :: new_lines (loop start_marker end_marker rest).
Proof.
  intros Hpre Hline _.
  assert (free_of start_marker (pre ++ [line])) as Hfree
    by (apply Forall_app; split; [done | by constructor]).
  split.
  - by apply loop_start_absent.
  - unfold loop, loop_init.
    rewrite (cons_middle line pre rest), app_assoc, loop_from_app.
    rewrite loop_searching by done. simpl.
    rewrite <- (app_nil_r (pre ++ [line])) at 1.
    rewrite loop_frame. cbv zeta. simpl. by rewrite <- app_assoc.
Qed.

Lemma end_marker_alone_is_kept_witness :
  new_lines (loop "START" "END" ([ln "a"] ++ ln "END" :: scenario_lines))
  = [ln "a"] ++ ln "END" :: new_lines (loop "START" "END" scenario_lines).
Proof.
  apply (end_marker_alone_is_kept "START" "END" [ln "a"] (ln "END")
           scenario_lines).
  - repeat constructor.
  - reflexivity.
  - reflexivity.
Defined.

(** C4: when no line contains the start marker, the loop keeps every line,
    the final test fails, and the script only prints that the block was not
    found: the files are the ones it started with, and it does not even need
    the file to be writable. *)
Theorem start_absent_no_write (start_marker end_marker : string)
    (lines : list string) :
  free_of start_marker lines ->
  new_lines (loop start_marker end_marker lines) = lines
  /\ status_of (loop start_marker end_marker lines) = NotFound
  /\ forall path w text,
       Py.files w !! path = Some text ->
       Py.readlines text = lines ->
       cleanup start_marker end_marker path w
       = (inr tt,
          Py.mkWorld (Py.files w) (Py.readonly w)
            (Py.stdout w ++ [message NotFound])).
Proof.
  intros Hfree. pose proof (loop_start_absent _ end_marker _ Hfree) as Hloop.
  split; [by rewrite Hloop|]. split; [unfold status_of; by rewrite Hloop|].
  intros path w text Hfile <-.
  by rewrite (cleanup_run _ _ _ _ _ Hfile), Hloop.
Qed.

Lemma start_absent_no_write_witness :
  free_of "START" [ln "a"; ln "b"]
  /\ new_lines (loop "START" "END" [ln "a"; ln "b"]) = [ln "a"; ln "b"]
  /\ cleanup "START" "END" "App.tsx" (one_file "App.tsx" (ln "a" +:+ ln "b"))
     = (inr tt,
        Py.mkWorld {[ "App.tsx" := ln "a" +:+ ln "b" ]} ∅ [msg_not_found]).
Proof.
  assert (free_of "START" [ln "a"; ln "b"]) as Hfree by repeat constructor.
  destruct (start_absent_no_write "START" "END" [ln "a"; ln "b"] Hfree)
    as (Hout & _ & Hrun).
  split; [done|]. split; [done|].
  apply (Hrun "App.tsx" (one_file "App.tsx" (ln "a" +:+ ln "b"))
           (ln "a" +:+ ln "b")); reflexivity.
Defined.

(** C7: when the start marker never occurs, the script tells the operator so
    on standard output, writes nothing, and ends normally with exit status
    0; a file that cannot be read ends it with an uncaught error and a
    non-zero status instead. *)
Theorem not_found_is_reported_not_raised (start_marker end_marker : string)
    (path : string) (w : Py.World) (text : string) :
  Py.files w !! path = Some text ->
  free_of start_marker (Py.readlines text) ->
  let r := cleanup start_marker end_marker path w in
  r.1 = inr tt
  /\ Py.exit_code r.1 = 0
  /\ Py.files r.2 = Py.files w
  /\ Py.stdout r.2 = Py.stdout w ++ [msg_not_found]
  /\ forall w', Py.files w' !! path = None ->
       let r' := cleanup start_marker end_marker path w' in
       r'.1 = inl (Py.OSError path) /\ Py.exit_code r'.1 = 1 /\ r'.2 = w'.
Proof.
  intros Hfile Hfree. cbv zeta.
  rewrite (cleanup_run _ _ _ _ _ Hfile).
  rewrite (loop_start_absent _ end_marker _ Hfree). simpl.
  repeat split; try done.
  all: by rewrite cleanup_unreadable.
Qed.

Lemma not_found_is_reported_not_raised_witness :
  (cleanup "START" "END" "App.tsx" (one_file "App.tsx" (ln "a" +:+ ln "b"))).1
  = inr tt
  /\ Py.stdout
       (cleanup "START" "END" "App.tsx"
          (one_file "App.tsx" (ln "a" +:+ ln "b"))).2
     = [msg_not_found].
Proof.
  destruct (not_found_is_reported_not_raised "START" "END" "App.tsx"
              (one_file "App.tsx" (ln "a" +:+ ln "b")) (ln "a" +:+ ln "b"))
    as (Hr & _ & _ & Hout & _).
  - reflexivity.
  - repeat constructor.
  - split; [exact Hr | exact Hout].
Defined.

(** C5: when the start marker occurs and no line from its first occurrence
    on contains the end marker, or when its first occurrence is the last
    line, the lines kept are the ones before that occurrence, the file is
    overwritten with them, and success is reported. *)
Theorem unterminated_block_truncates (start_marker end_marker : string)
    (pre : list string) (s : string) (tl : list string) :
  free_of start_marker pre ->
  has start_marker s ->
  free_of end_marker (s :: tl) \/ tl = [] ->
  new_lines (loop start_marker end_marker (pre ++ s :: tl)) = pre
  /\ status_of (loop start_marker end_marker (pre ++ s :: tl)) = Success
  /\ forall path w text,
       Py.files w !! path = Some text ->
       path ∉ Py.readonly w ->
       Py.readlines text = pre ++ s :: tl ->
       cleanup start_marker end_marker path w
       = (inr tt,
          Py.mkWorld (<[path := Py.joined pre]> (Py.files w)) (Py.readonly w)
            (Py.stdout w ++ [message Success])).
Proof.
  intros Hpre Hs Hcase.
  assert (new_lines (loop start_marker end_marker (pre ++ s :: tl)) = pre
          /\ found_start (loop start_marker end_marker (pre ++ s :: tl))
             = true) as [Hout Hfound].
  { destruct Hcase as [Hend | ->].
    - by rewrite loop_unterminated.
    - by rewrite loop_start_last. }
  split; [done|]. split; [unfold status_of; by rewrite Hfound|].
  intros path w text Hfile Hrw Hlines.
  rewrite (cleanup_run _ _ _ _ _ Hfile), Hlines. cbv zeta.
  rewrite Hfound, Hout. by rewrite decide_False.
Qed.

Lemma unterminated_block_truncates_witness :
  new_lines (loop "START" "END" [ln "a"; ln "b"; "START"]) = [ln "a"; ln "b"]
  /\ cleanup "START" "END" "App.tsx"
       (one_file "App.tsx" (ln "a" +:+ ln "b" +:+ "START"))
     = (inr tt,
        Py.mkWorld {[ "App.tsx" := ln "a" +:+ ln "b" ]} ∅ [msg_removed]).
Proof.
  destruct (unterminated_block_truncates "START" "END" [ln "a"; ln "b"]
              "START" []) as (Hout & _ & Hrun).
  - repeat constructor.
  - reflexivity.
  - by right.
  - split; [exact Hout|].
    rewrite (Hrun "App.tsx"
               (one_file "App.tsx" (ln "a" +:+ ln "b" +:+ "START"))
               (ln "a" +:+ ln "b" +:+ "START"));
      [ | reflexivity | apply not_elem_of_empty | reflexivity ].
    by vm_compute.
Defined.

(** C6: after a run that found the start marker and rewrote the file, a
    second run finds no start marker: the loop keeps every line it reads, the
    script reports that the block was not found and leaves the files as the
    first run left them. *)
Theorem second_run_finds_nothing (start_marker end_marker : string)
    (lines : list string) :
  status_of (loop start_marker end_marker lines) = Success ->
  let kept := new_lines (loop start_marker end_marker lines) in
  loop start_marker end_marker kept = mkLoop kept false false
  /\ status_of (loop start_marker end_marker kept) = NotFound
  /\ forall path w text,
       Py.files w !! path = Some text ->
       path ∉ Py.readonly w ->
       Py.readlines text = lines ->
       exists w1,
         cleanup start_marker end_marker path w = (inr tt, w1)
         /\ Py.files w1 !! path = Some (Py.joined kept)
         /\ Py.stdout w1 = Py.stdout w ++ [message Success]
         /\ cleanup start_marker end_marker path w1
            = (inr tt,
               Py.mkWorld (Py.files w1) (Py.readonly w1)
                 (Py.stdout w1 ++ [message NotFound])).
Proof.
  intros Hfirst kept.
  assert (found_start (loop start_marker end_marker lines) = true) as Hfound.
  { unfold status_of in Hfirst. by destruct (found_start _). }
  assert (loop start_marker end_marker kept = mkLoop kept false false) as Hsecond.
  { apply loop_start_absent. apply loop_no_start. constructor. }
  split; [done|]. split; [unfold status_of; by rewrite Hsecond|].
  intros path w text Hfile Hrw Hlines.
  eexists. split.
  { rewrite (cleanup_run _ _ _ _ _ Hfile), Hlines. cbv zeta.
    rewrite Hfound. by rewrite decide_False. }
  simpl. split; [by rewrite lookup_insert_eq|]. split; [done|].
  erewrite cleanup_run by (simpl; apply lookup_insert_eq). cbv zeta.
  rewrite readlines_joined.
  - fold kept. by rewrite Hsecond.
  - apply (file_lines_sublist _ lines); [apply loop_sublist|].
    rewrite <- Hlines. apply readlines_file_lines.
Qed.

Lemma second_run_finds_nothing_witness :
  status_of (loop "START" "END" scenario_lines) = Success
  /\ loop "START" "END" (new_lines (loop "START" "END" scenario_lines))
     = mkLoop [ln "a"; ln "c"] false false.
Proof.
  split; [reflexivity|].
  apply (second_run_finds_nothing "START" "END" scenario_lines).
  reflexivity.
Defined.

(** C3, as the script has it: when exactly one line, at index [i], contains
    the start marker, that line does not contain the end marker, and exactly
    one line after it, at index [j], contains the end marker, the lines kept
    are the input without the lines [i] to [j], success is reported, and the
    script overwrites the file with the lines kept and prints the success
    message.  The scenario of section 8 is the instance [i = 1], [j = 3]. *)
Theorem single_block_removed (start_marker end_marker : string)
    (lines : list string) (i j : nat) (s e : string) :
  lines !! i = Some s ->
  has start_marker s ->
  (forall k line, lines !! k = Some line -> has start_marker line -> k = i) ->
  Py.contains end_marker s = false ->
  lines !! j = Some e ->
  has end_marker e ->
  (forall k line,
     i < k -> lines !! k = Some line -> has end_marker line -> k = j) ->
  i < j ->
  new_lines (loop start_marker end_marker lines)
  = take i lines ++ drop (S j) lines
  /\ status_of (loop start_marker end_marker lines) = Success
  /\ forall path w text,
       Py.files w !! path = Some text ->
       path ∉ Py.readonly w ->
       Py.readlines text = lines ->
       cleanup start_marker end_marker path w
       = (inr tt,
          Py.mkWorld
            (<[path := Py.joined (take i lines ++ drop (S j) lines)]>
               (Py.files w))
            (Py.readonly w) (Py.stdout w ++ [msg_removed])).
Proof.
  intros Hi Hs Hs1 Hsend Hj He He2 Hij.
  assert (forall k line,
            i <= k -> lines !! k = Some line -> has end_marker line -> k = j)
    as He1.
  { intros k line Hle Hk Hline.
    destruct (decide (k = i)) as [->|Hne]; [|apply (He2 k line); [lia|done..]].
    rewrite Hi in Hk. injection Hk as <-. unfold has in Hline. congruence. }
  set (after := drop (S i) lines).
  assert (after !! (j - S i) = Some e) as Hj'.
  { unfold after. rewrite lookup_drop.
    by replace (S i + (j - S i)) with j by lia. }
  assert (lines = take i lines
                    ++ s :: take (j - S i) after ++ e :: drop (S j) lines)
    as Hsplit.
  { rewrite <- (take_drop_middle _ _ _ Hi) at 1. do 2 f_equal. fold after.
    rewrite <- (take_drop_middle _ _ _ Hj') at 1. do 2 f_equal.
    unfold after. rewrite drop_drop. f_equal. lia. }
  assert (loop start_marker end_marker lines
          = mkLoop (take i lines ++ drop (S j) lines) false true) as Hloop.
  { rewrite Hsplit at 1. apply loop_one_block; try done.
    - apply Forall_lookup_2. intros k line Hk.
      apply lookup_take_Some in Hk as [Hk Hlt].
      destruct (Py.contains start_marker line) eqn:E; [|done].
      specialize (Hs1 k line Hk E). lia.
    - apply Forall_lookup_2. intros k line Hk.
      apply lookup_take_Some in Hk as [Hk Hlt].
      unfold after in Hk. rewrite lookup_drop in Hk.
      destruct (Py.contains end_marker line) eqn:E; [|done].
      assert (i <= S i + k) as Hle by lia.
      specialize (He1 _ line Hle Hk E). lia.
    - destruct (Py.contains start_marker e) eqn:E; [|done].
      specialize (Hs1 j e Hj E). lia.
    - apply Forall_lookup_2. intros k line Hk. rewrite lookup_drop in Hk.
      destruct (Py.contains start_marker line) eqn:E; [|done].
      specialize (Hs1 _ line Hk E). lia. }
  rewrite Hloop. split; [done|]. split; [done|].
  intros path w text Hfile Hrw Hlines.
  rewrite (cleanup_run _ _ _ _ _ Hfile), Hlines, Hloop. cbv zeta. simpl.
  by rewrite decide_False.
Qed.

Lemma single_block_removed_witness :
  new_lines (loop "START" "END" scenario_lines) = [ln "a"; ln "c"]
  /\ status_of (loop "START" "END" scenario_lines) = Success
  /\ cleanup "START" "END" "App.tsx"
       (one_file "App.tsx" (Py.joined scenario_lines))
     = (inr tt,
        Py.mkWorld {[ "App.tsx" := ln "a" +:+ ln "c" ]} ∅ [msg_removed]).
Proof.
  destruct (single_block_removed "START" "END" scenario_lines 1 3
              (ln "START") (ln "END")) as (Hout & Hstatus & Hrun).
  - reflexivity.
  - reflexivity.
  - intros k line Hk Hline.
    do 5 (destruct k as [|k]; [injection Hk as <-; first [done | discriminate Hline]|]).
    discriminate Hk.
  - reflexivity.
  - reflexivity.
  - reflexivity.
  - intros k line _ Hk Hline.
    do 5 (destruct k as [|k]; [injection Hk as <-; first [done | discriminate Hline]|]).
    discriminate Hk.
  - lia.
  - split; [exact Hout|]. split; [exact Hstatus|].
    rewrite (Hrun "App.tsx" (one_file "App.tsx" (Py.joined scenario_lines))
               (Py.joined scenario_lines));
      [ | reflexivity | apply not_elem_of_empty | reflexivity ].
    by vm_compute.
Defined.

(** C3 fails as stated: with the end marker on the start line as well, one
    line has the start marker and one line after it has the end marker, yet
    the block is closed on the start line: only that line is dropped, and the
    later line with the end marker is kept. *)
Lemma end_marker_on_start_line_keeps_rest :
  end_on_start_line !! 0 = Some (ln "START END")
  /\ has "START" (ln "START END")
  /\ (forall k line,
        end_on_start_line !! k = Some line -> has "START" line -> k = 0)
  /\ end_on_start_line !! 2 = Some (ln "END")
  /\ has "END" (ln "END")
  /\ (forall k line,
        0 < k -> end_on_start_line !! k = Some line -> has "END" line ->
        k = 2)
  /\ new_lines (loop "START" "END" end_on_start_line)
     = [ln "b"; ln "END"; ln "c"]
  /\ take 0 end_on_start_line ++ drop 3 end_on_start_line = [ln "c"]
  /\ new_lines (loop "START" "END" end_on_start_line)
     <> take 0 end_on_start_line ++ drop 3 end_on_start_line.
Proof.
  split; [reflexivity|]. split; [reflexivity|]. split.
  { intros k line Hk Hline.
    do 4 (destruct k as [|k]; [injection Hk as <-; first [done | discriminate Hline]|]).
    discriminate Hk. }
  split; [reflexivity|]. split; [reflexivity|]. split.
  { intros k line Hpos Hk Hline.
    destruct k as [|k]; [lia|].
    do 3 (destruct k as [|k]; [injection Hk as <-; first [done | discriminate Hline]|]).
    discriminate Hk. }
  split; [reflexivity|]. split; [reflexivity|]. discriminate.
Qed.

(** C1, as the script has it: the lines before the first line with the start
    marker are kept, the run from that line through the first line, from it
    on, with the end marker is dropped (to the end of the input when there is
    none), and the loop goes on over the lines after the run, where a start
    marker opens a new run; when none of them has the start marker they are
    all kept. *)
Theorem first_block_removed (start_marker end_marker : string)
    (pre : list string) (s : string) (tl : list string) :
  free_of start_marker pre ->
  has start_marker s ->
  let rest := Spec.after_end end_marker (s :: tl) in
  new_lines (loop start_marker end_marker (pre ++ s :: tl))
  = pre ++ new_lines (loop start_marker end_marker rest)
  /\ (free_of start_marker rest ->
      new_lines (loop start_marker end_marker (pre ++ s :: tl)) = pre ++ rest).
Proof.
  intros Hpre Hs rest.
  assert (new_lines (loop start_marker end_marker (pre ++ s :: tl))
          = pre ++ new_lines (loop start_marker end_marker rest)) as Hout
    by by apply loop_first_block.
  split; [done|]. intros Hrest.
  by rewrite Hout, loop_start_absent.
Qed.

Lemma first_block_removed_witness :
  new_lines (loop "START" "END" ([ln "a"] ++ ln "START" :: [ln "b"; ln "END"; ln "c"]))
  = [ln "a"] ++ [ln "c"].
Proof.
  apply (first_block_removed "START" "END" [ln "a"] (ln "START")
           [ln "b"; ln "END"; ln "c"]).
  - repeat constructor.
  - reflexivity.
  - repeat constructor.
Defined.

(** C1 fails as stated: with two blocks in the input, the script removes
    both, and the lines between them are all that is kept. *)
Lemma second_block_is_removed_too :
  Exists (has "START") two_blocks
  /\ new_lines (loop "START" "END" two_blocks) = [ln "x"]
  /\ Spec.remove_first_block "START" "END" two_blocks
     = [ln "x"; ln "START"; ln "y"]
  /\ new_lines (loop "START" "END" two_blocks)
     <> Spec.remove_first_block "START" "END" two_blocks.
Proof.
  split; [by left|]. split; [reflexivity|]. split; [reflexivity|].
  discriminate.
Qed.

(** C2, as the script has it: on every input the loop keeps the lines and
    reports the status of the machine of section 4.1 with the end-marker
    test applied to the line that opens a block too, and the script writes
    and prints accordingly; the loop agrees with the machine of section 4.1
    as written on every input whose lines with both markers are all met
    inside a block. *)
Theorem script_refines_same_line_machine (start_marker end_marker : string)
    (lines : list string) :
  let m := Spec.run_same_line start_marker end_marker lines in
  new_lines (loop start_marker end_marker lines) = Spec.output m
  /\ status_of (loop start_marker end_marker lines) = Spec.reported m
  /\ (forall path w text,
        Py.files w !! path = Some text ->
        path ∉ Py.readonly w ->
        Py.readlines text = lines ->
        cleanup start_marker end_marker path w
        = (inr tt,
           Py.mkWorld
             (match Spec.reported m with
              | Success => <[path := Py.joined (Spec.output m)]> (Py.files w)
              | NotFound => Py.files w
              end)
             (Py.readonly w)
             (Py.stdout w ++ [message (Spec.reported m)])))
  /\ (both_markers_inside start_marker end_marker lines ->
      new_lines (loop start_marker end_marker lines)
      = Spec.output (Spec.run start_marker end_marker lines)
      /\ status_of (loop start_marker end_marker lines)
         = Spec.reported (Spec.run start_marker end_marker lines)).
Proof.
  cbv zeta. rewrite run_same_line_loop.
  split; [done|]. split; [done|]. split.
  - intros path w text Hfile Hrw <-.
    rewrite (cleanup_run _ _ _ _ _ Hfile). cbv zeta.
    unfold Spec.reported, as_spec_state. simpl.
    destruct (found_start _); [by rewrite decide_False | done].
  - intros Hinside. by rewrite run_inside_loop.
Qed.

Lemma script_refines_same_line_machine_witness :
  both_markers_inside "START" "END" both_inside_block
  /\ new_lines (loop "START" "END" both_inside_block)
     = Spec.output (Spec.run "START" "END" both_inside_block)
  /\ status_of (loop "START" "END" both_inside_block)
     = Spec.reported (Spec.run "START" "END" both_inside_block).
Proof.
  assert (both_markers_inside "START" "END" both_inside_block) as Hinside.
  { intros pre x post Heq Hs He.
    do 2 (destruct pre as [|? pre];
          [injection Heq as <- _; discriminate He | injection Heq as <- Heq]).
    destruct pre as [|? pre].
    - exists [], (ln "START"), [ln "m"].
      split; [reflexivity|]. split; [reflexivity | repeat constructor].
    - injection Heq as <- Heq.
      do 3 (destruct pre as [|? pre];
            [injection Heq as <- _; discriminate Hs | injection Heq as <- Heq]).
      by destruct pre. }
  split; [exact Hinside|].
  by apply (script_refines_same_line_machine "START" "END" both_inside_block).
Defined.

(** C2 fails as stated: when the line that opens the block carries the end
    marker too, the script closes the block on that line and keeps what
    follows, while the machine of section 4.1 goes on dropping lines. *)
Lemma same_line_end_marker_closes_block :
  new_lines (loop "START" "END" both_on_one_line) = [ln "b"]
  /\ Spec.output (Spec.run "START" "END" both_on_one_line) = []
  /\ (new_lines (loop "START" "END" both_on_one_line),
      status_of (loop "START" "END" both_on_one_line))
     <> (Spec.output (Spec.run "START" "END" both_on_one_line),
         Spec.reported (Spec.run "START" "END" both_on_one_line)).
Proof.
  split; [reflexivity|]. split; [reflexivity|]. discriminate.
Qed.

(** ** Further statements about the script *)

Lemma snoc_neq {A} (l : list A) (x : A) : l <> l ++ [x].
Proof.
  intros Heq. apply (f_equal length) in Heq.
  rewrite length_app in Heq. simpl in Heq. lia.
Qed.

(** X1: on a file that can be read, the script prints the success message
    exactly when some line contains the start marker and the file can be
    opened for writing, and the not-found message exactly when no line
    contains the start marker. *)
Theorem message_printed_iff (start_marker end_marker : string)
    (path : string) (w : Py.World) (text : string) :
  Py.files w !! path = Some text ->
  let w' := (cleanup start_marker end_marker path w).2 in
  (Py.stdout w' = Py.stdout w ++ [msg_removed]
   <-> Exists (has start_marker) (Py.readlines text)
       /\ (path ∉ Py.readonly w))
  /\ (Py.stdout w' = Py.stdout w ++ [msg_not_found]
      <-> ~ Exists (has start_marker) (Py.readlines text)).
Proof.
  intros Hfile. cbv zeta. rewrite (cleanup_run _ _ _ _ _ Hfile). cbv zeta.
  pose proof (found_start_iff start_marker end_marker (Py.readlines text))
    as Hiff.
  destruct (found_start _).
  - assert (Exists (has start_marker) (Py.readlines text)) as Hex
      by by apply Hiff.
    destruct (decide _) as [Hro|Hrw]; simpl.
    + split; split.
      * intros Heq. by apply snoc_neq in Heq.
      * by intros [_ Hrw].
      * intros Heq. by apply snoc_neq in Heq.
      * done.
    + split; split; try done.
      intros Heq. apply app_inv_head in Heq. discriminate Heq.
  - assert (~ Exists (has start_marker) (Py.readlines text)) as Hex.
    { intros Hex. apply Hiff in Hex. discriminate Hex. }
    simpl. split; split; try done.
    + intros Heq. apply app_inv_head in Heq. discriminate Heq.
    + by intros [Hex' _].
Qed.

Lemma message_printed_iff_witness :
  Py.stdout
    (cleanup "START" "END" "App.tsx"
       (Py.mkWorld {[ "App.tsx" := Py.joined scenario_lines ]}
          {[ "App.tsx" ]} [])).2
  <> [] ++ [msg_removed].
Proof.
  intros Heq.
  apply (message_printed_iff "START" "END" "App.tsx"
           (Py.mkWorld {[ "App.tsx" := Py.joined scenario_lines ]}
              {[ "App.tsx" ]} [])
           (Py.joined scenario_lines)) in Heq; [|reflexivity].
  destruct Heq as [_ Hrw]. apply Hrw. simpl. by apply elem_of_singleton_2.
Defined.

(** X2: the loop ends inside a block, [skip] still set, exactly when some
    line carries the start marker and neither it nor any later line carries
    the end marker. *)
Theorem ends_skipping_iff_block_open (start_marker end_marker : string)
    (lines : list string) :
  skip (loop start_marker end_marker lines) = true
  <-> block_open start_marker end_marker lines.
Proof. apply skip_iff_block_open. Qed.

Lemma ends_skipping_iff_block_open_witness :
  block_open "START" "END" [ln "a"; ln "START"; ln "b"]
  /\ skip (loop "START" "END" [ln "a"; ln "START"; ln "b"]) = true.
Proof.
  assert (block_open "START" "END" [ln "a"; ln "START"; ln "b"]) as Hopen.
  { exists [ln "a"], (ln "START"), [ln "b"].
    split; [reflexivity|]. split; [reflexivity | repeat constructor]. }
  split; [exact Hopen|].
  by apply (ends_skipping_iff_block_open "START" "END"
              [ln "a"; ln "START"; ln "b"]).
Defined.

(** X3: a line is dropped when it carries the start marker or when a block
    is open at the end of the lines before it; otherwise it is appended to
    the lines kept so far. *)
Theorem line_kept_iff_outside_block (start_marker end_marker : string)
    (pre : list string) (x : string) :
  (has start_marker x \/ block_open start_marker end_marker pre ->
   new_lines (loop start_marker end_marker (pre ++ [x]))
   = new_lines (loop start_marker end_marker pre))
  /\ (~ has start_marker x ->
      ~ block_open start_marker end_marker pre ->
      new_lines (loop start_marker end_marker (pre ++ [x]))
      = new_lines (loop start_marker end_marker pre) ++ [x]).
Proof.
  rewrite loop_snoc, loop_body_eq. simpl. split.
  - intros [Hx | Hopen].
    + rewrite Hx. by rewrite orb_true_r.
    + apply skip_iff_block_open in Hopen. by rewrite Hopen.
  - intros Hx Hopen. apply not_has in Hx. rewrite Hx.
    destruct (skip (loop start_marker end_marker pre)) eqn:Hsk; [|done].
    by apply skip_iff_block_open in Hsk.
Qed.

Lemma line_kept_iff_outside_block_witness :
  new_lines (loop "START" "END" ([ln "a"; ln "START"] ++ [ln "END"]))
  = new_lines (loop "START" "END" [ln "a"; ln "START"])
  /\ new_lines (loop "START" "END" ([ln "a"; ln "START"; ln "END"] ++ [ln "c"]))
     = new_lines (loop "START" "END" [ln "a"; ln "START"; ln "END"]) ++ [ln "c"].
Proof.
  split.
  - apply (line_kept_iff_outside_block "START" "END" [ln "a"; ln "START"]
             (ln "END")).
    right. exists [ln "a"], (ln "START"), [].
    split; [reflexivity|]. split; [reflexivity | repeat constructor].
  - apply (line_kept_iff_outside_block "START" "END"
             [ln "a"; ln "START"; ln "END"] (ln "c")).
    + intros Hx. discriminate Hx.
    + intros Hopen. apply skip_iff_block_open in Hopen. discriminate Hopen.
Defined.

(** X4: the lines kept from a prefix of the input open the lines kept from
    the whole input; when no block is open at the end of the prefix, the
    loop over the whole input keeps what it keeps from the prefix followed by
    what it keeps from the rest alone, and finds the start marker when one of
    the two parts has it. *)
Theorem kept_lines_compose (start_marker end_marker : string)
    (l1 l2 : list string) :
  new_lines (loop start_marker end_marker l1)
    `prefix_of` new_lines (loop start_marker end_marker (l1 ++ l2))
  /\ (~ block_open start_marker end_marker l1 ->
      loop start_marker end_marker (l1 ++ l2)
      = mkLoop
          (new_lines (loop start_marker end_marker l1)
           ++ new_lines (loop start_marker end_marker l2))
          (skip (loop start_marker end_marker l2))
          (found_start (loop start_marker end_marker l1)
           || found_start (loop start_marker end_marker l2))).
Proof.
  split.
  - rewrite loop_app_new_lines. by eexists.
  - intros Hopen.
    assert (skip (loop start_marker end_marker l1) = false) as Hsk.
    { destruct (skip _) eqn:Hsk; [|done]. by apply skip_iff_block_open in Hsk. }
    unfold loop in *. rewrite loop_from_app.
    destruct (loop_from start_marker end_marker loop_init l1) as [acc sk f].
    simpl in Hsk. subst sk. simpl.
    rewrite <- (app_nil_r acc) at 1. rewrite loop_frame. cbv zeta.
    unfold loop_init.
    destruct (loop_found_irrelevant start_marker end_marker [] false f false l2)
      as [-> ->].
    by rewrite !found_start_loop.
Qed.

Lemma kept_lines_compose_witness :
  loop "START" "END" (scenario_lines ++ two_blocks)
  = mkLoop ([ln "a"; ln "c"] ++ [ln "x"]) true (true || true).
Proof.
  apply (kept_lines_compose "START" "END" scenario_lines two_blocks).
  intros Hopen. apply skip_iff_block_open in Hopen. discriminate Hopen.
Defined.





(** X7: counting the failures of [open] and of decoding, the script ends with
    exit status 0 exactly when its file can be opened for reading, its bytes
    decode and, if some line of it contains the start marker, it can be
    opened for writing. *)
Theorem exit_status_zero_iff (start_marker end_marker : string)
    (path : string) (m : Machine) :
  Py.exit_code (run_cleanup start_marker end_marker path m).1 = 0
  <-> (path ∉ garbled m)
      /\ (exists text,
            Py.files (decoded m) !! path = Some text
            /\ (Exists (has start_marker) (Py.readlines text) ->
                path ∉ Py.readonly (decoded m))).
Proof.
  unfold run_cleanup. destruct m as [w g]. simpl.
  destruct (decide (path ∈ g)) as [Hg|Hg]; simpl.
  { split; [done|]. by intros [Hg' _]. }
  destruct (Py.files w !! path) as [text|] eqn:Hfile.
  - rewrite (cleanup_run _ _ _ _ _ Hfile). cbv zeta.
    destruct (found_start _) eqn:Hfound.
    + apply found_start_iff in Hfound. destruct (decide _) as [Hro|Hrw]; simpl.
      * split; [done|].
        intros (_ & text' & [= <-] & Himp). by apply Himp in Hro.
      * split; [|done]. intros _. split; [done|]. by exists text.
    + simpl. split; [|done]. intros _. split; [done|].
      exists text. split; [done|].
      intros Hex. apply (found_start_iff start_marker end_marker) in Hex.
      congruence.
  - rewrite (cleanup_unreadable _ _ _ _ Hfile). simpl.
    split; [done|]. by intros (_ & text & [=] & _).
Qed.

Lemma exit_status_zero_iff_witness :
  Py.exit_code
    (run_cleanup "START" "END" "App.tsx"
       (mkMachine (one_file "App.tsx" (Py.joined scenario_lines))
          {[ "App.tsx" ]})).1
  <> 0.
Proof.
  intros Hzero.
  apply (exit_status_zero_iff "START" "END" "App.tsx"
           (mkMachine (one_file "App.tsx" (Py.joined scenario_lines))
              {[ "App.tsx" ]})) in Hzero.
  destruct Hzero as [Hg _]. apply Hg. simpl. by apply elem_of_singleton_2.
Defined.

(** X8: the file the script writes, read again line by line, gives exactly
    the lines kept: dropping lines never glues two kept lines into one, since
    only the last line of a file can lack its terminator. *)
Theorem written_file_reads_back (start_marker end_marker : string)
    (path : string) (w : Py.World) (text : string) :
  Py.files w !! path = Some text ->
  path ∉ Py.readonly w ->
  Exists (has start_marker) (Py.readlines text) ->
  exists new,
    Py.files (cleanup start_marker end_marker path w).2 !! path = Some new
    /\ Py.readlines new
       = new_lines (loop start_marker end_marker (Py.readlines text)).
Proof.
  intros Hfile Hrw Hex.
  apply (found_start_iff start_marker end_marker) in Hex.
  rewrite (cleanup_run _ _ _ _ _ Hfile). cbv zeta.
  rewrite Hex, decide_False by done. simpl.
  eexists. split; [apply lookup_insert_eq|].
  apply readlines_joined.
  apply (file_lines_sublist _ (Py.readlines text));
    [apply loop_sublist | apply readlines_file_lines].
Qed.

Lemma written_file_reads_back_witness :
  exists new,
    Py.files
      (cleanup "START" "END" "App.tsx"
         (one_file "App.tsx" (ln "a" +:+ ln "START" +:+ "b"))).2 !! "App.tsx"
    = Some new
    /\ Py.readlines new
       = new_lines
           (loop "START" "END"
              (Py.readlines (ln "a" +:+ ln "START" +:+ "b"))).
Proof.
  apply (written_file_reads_back "START" "END" "App.tsx"
           (one_file "App.tsx" (ln "a" +:+ ln "START" +:+ "b"))
           (ln "a" +:+ ln "START" +:+ "b")).
  - reflexivity.
  - apply not_elem_of_empty.
  - right. by left.
Defined.
